(** * The [Acquire] loader of [_acquire.py]: cache-or-fetch over an explicit world

    [_acquire.py] holds one class, [Acquire], with a constructor that stores
    three strings, a loader [_load_data] that either parses a cached csv file
    or queries a database (optionally writing the csv cache), an overridable
    hook [_pre_preparation], and [get_data], which chains the two.

    The methods are embedded in a state-and-exception monad.  The state holds
    the object [self] (so that an assignment to a field is expressible) and
    the world the library calls act on: the files on disk, the remote
    database, whose answers may change with every query it is sent, and a
    log of the library calls that were made.  A Python exception is a
    [Raise] result; the state reached when it was raised is kept, as Python
    does not roll anything back. *)

From Stdlib Require Import Ascii String DecimalString.
From Stdlib Require DecimalZ DecimalPos.
From stdpp Require Import base option list strings gmap.

(** ** Exceptions and results *)

(** The exceptions that the library calls of the module can raise. *)
Inductive Exn : Type :=
  | FileNotFoundError (path : string)
  | IsADirectoryError (path : string)
  | OSError (path : string) (msg : string)
  | CsvError (msg : string)
  | DbError (msg : string)
  | ConfigError (msg : string).

Inductive result (A : Type) : Type :=
  | Ok (a : A)
  | Raise (e : Exn).
Arguments Ok {A} a.
Arguments Raise {A} e.

(** ** The object *)

(** An instance of [Acquire]: the three attributes set by [__init__]. *)
Record Acquire : Type := mkAcquire {
  file_name : string;
  database_name : string;
  sql : string
}.

(** ** The world *)

(** What a path of the file system refers to. *)
Inductive node : Type :=
  | File (text : string)
  | Dir.

(** A library call made by the module, as it appears in the log. *)
Inductive Call : Type :=
  | os_path_exists_call (path : string)
  | read_csv_call (path : string)
  | get_db_url_call (name : string)
  | read_sql_call (query : string) (url : string)
  | to_csv_call (path : string) (index : bool).

(** A logged call with its outcome: [None] when it returned, [Some e] when it
    raised [e]. *)
Record Event : Type := mkEvent {
  call : Call;
  raised : option Exn
}.

(** Field assignment, [self.f = v]. *)
Definition set_file_name (v : string) (a : Acquire) : Acquire :=
  mkAcquire v (database_name a) (sql a).
Definition set_database_name (v : string) (a : Acquire) : Acquire :=
  mkAcquire (file_name a) v (sql a).
Definition set_sql (v : string) (a : Acquire) : Acquire :=
  mkAcquire (file_name a) (database_name a) v.

(** ** The libraries *)

(** The tabular dataset ([pandas.DataFrame]) and the three library functions
    whose code is outside the module: the csv parser behind [pd.read_csv],
    the csv printer behind [DataFrame.to_csv] (with its [index] flag), and
    the url that [get_db_url] builds for a database name. *)
Class Library : Type := {
  Dataset : Type;
  parse_csv : string -> result Dataset;
  render_csv : Dataset -> bool -> string;
  db_url : string -> result string
}.

Section Loader.

Context {lib : Library}.

(** The world.  [files] maps the paths that exist to what they refer to.
    [wfail] gives the paths that cannot be opened for writing, with the
    error that opening them raises (permissions, a missing parent
    directory).  [remote] is what the database answers now, at a connection
    url, to a query; [remote_after h] is what it will answer once the
    queries of [h] (the latest first) have been sent to it, so that a query
    may change the answers to the queries that follow.  [trace] is the log
    of library calls, oldest first. *)
Record World : Type := mkWorld {
  files : gmap string node;
  wfail : gmap string Exn;
  remote : string -> string -> result Dataset;
  remote_after : list (string * string) -> string -> string -> result Dataset;
  trace : list Event
}.

Record State : Type := mkState {
  self : Acquire;
  world : World
}.

(** ** The monad *)

Definition M (A : Type) : Type := State -> result A * State.

Definition ret {A} (a : A) : M A := fun s => (Ok a, s).

Definition bind {A B} (m : M A) (k : A -> M B) : M B :=
  fun s => match m s with
           | (Ok a, s') => k a s'
           | (Raise e, s') => (Raise e, s')
           end.

Notation "'let*' x ':=' m 'in' k" := (bind m (fun x => k))
  (at level 10, x name, m at level 100, k at level 200,
   format "'[v' 'let*'  x  ':='  m  'in' '/' k ']'").

(** Attribute access on [self]. *)
Definition get_self : M Acquire := fun s => (Ok (self s), s).

Definition set_self (upd : Acquire -> Acquire) : M unit :=
  fun s => (Ok tt, mkState (upd (self s)) (world s)).

(** ** The library calls *)

Definition outcome {A} (r : result A) : option Exn :=
  match r with Ok _ => None | Raise e => Some e end.

Definition log (c : Call) (o : option Exn) (w : World) : World :=
  mkWorld (files w) (wfail w) (remote w) (remote_after w)
    (trace w ++ [mkEvent c o]).

(** [os.path.exists]: true for any existing path, file or directory; the
    empty path names nothing ([stat] fails on it), so it never exists. *)
Definition path_exists (fs : gmap string node) (p : string) : bool :=
  if decide (p = "") then false
  else match fs !! p with Some _ => true | None => false end.

Definition os_path_exists (p : string) : M bool :=
  fun s => (Ok (path_exists (files (world s)) p),
            mkState (self s) (log (os_path_exists_call p) None (world s))).

(** Opening a path for reading. *)
Definition open_read (fs : gmap string node) (p : string) : result string :=
  if decide (p = "") then Raise (FileNotFoundError p)
  else match fs !! p with
       | None => Raise (FileNotFoundError p)
       | Some Dir => Raise (IsADirectoryError p)
       | Some (File text) => Ok text
       end.

(** [pd.read_csv(path)]: opens the file and parses its text; the world is
    only read. *)
Definition pd_read_csv (p : string) : M Dataset :=
  fun s =>
    let r := match open_read (files (world s)) p with
             | Ok text => parse_csv text
             | Raise e => Raise e
             end in
    (r, mkState (self s) (log (read_csv_call p) (outcome r) (world s))).

(** [get_db_url(name)]. *)
Definition get_db_url (name : string) : M string :=
  fun s =>
    let r := db_url name in
    (r, mkState (self s) (log (get_db_url_call name) (outcome r) (world s))).

(** The database once it has been sent a query. *)
Definition serve (query url : string) (w : World) : World :=
  mkWorld (files w) (wfail w)
    (remote_after w [(query, url)])
    (fun h => remote_after w (h ++ [(query, url)]))
    (trace w).

(** [pd.read_sql(query, url)]: one query sent to the database at [url]; the
    answer is the one the database gives now, and the database moves on. *)
Definition pd_read_sql (query url : string) : M Dataset :=
  fun s =>
    let r := remote (world s) query url in
    (r, mkState (self s)
          (log (read_sql_call query url) (outcome r)
             (serve query url (world s)))).

(** Opening a path for writing (mode [w]): fails on the empty path, on a
    directory and on the paths of [wfail].  A path that cannot be opened is
    neither created nor truncated. *)
Definition open_write (w : World) (p : string) : result unit :=
  if decide (p = "") then Raise (FileNotFoundError p)
  else match files w !! p with
       | Some Dir => Raise (IsADirectoryError p)
       | _ => match wfail w !! p with
              | Some e => Raise e
              | None => Ok tt
              end
       end.

(** [df.to_csv(path, index = index)]: opens [path] for writing and replaces
    whatever file was there by the printed dataset; when [path] cannot be
    opened, raises, and the files are as they were.  The failures covered
    are those of opening the file: a write that fails once the file is open
    (a disk that fills up), and leaves it truncated, is not among the
    behaviours described here. *)
Definition to_csv (df : Dataset) (p : string) (index : bool) : M unit :=
  fun s =>
    let w := world s in
    match open_write w p with
    | Ok _ =>
        (Ok tt,
         mkState (self s)
           (log (to_csv_call p index) None
              (mkWorld (<[p := File (render_csv df index)]> (files w))
                 (wfail w) (remote w) (remote_after w) (trace w))))
    | Raise e =>
        (Raise e, mkState (self s) (log (to_csv_call p index) (Some e) w))
    end.

(** ** The class [Acquire] *)

(** [__init__(self, file_name = '', database_name = '', sql = '')]: an
    omitted argument is [None] here and takes the default of the signature;
    the body is the three assignments. *)
Definition __init__ (file_name database_name sql : option string) : M unit :=
  let file_name := default "" file_name in
  let database_name := default "" database_name in
  let sql := default "" sql in
  let* _ := set_self (set_file_name file_name) in
  let* _ := set_self (set_database_name database_name) in
  set_self (set_sql sql).

(** [_load_data(self, use_cache, cache_data)].  The test of the [if] is
    [os.path.exists(self.file_name) and use_cache]: the existence check is
    evaluated first, on every call. *)
Definition _load_data (use_cache cache_data : bool) : M Dataset :=
  let* a := get_self in
  let* cached := os_path_exists (file_name a) in
  if cached && use_cache then
    pd_read_csv (file_name a)
  else
    let* url := get_db_url (database_name a) in
    let* df := pd_read_sql (sql a) url in
    let* _ := (if cache_data then to_csv df (file_name a) false else ret tt) in
    ret df.

(** [_pre_preparation(self, df)] of the base class: [return df]. *)
Definition _pre_preparation (df : Dataset) : M Dataset := ret df.

(** [get_data(self, use_cache, cache_data)].  The call
    [self._pre_preparation(df)] is dispatched on the class of [self]:
    [get_data_via hook] is [get_data] as inherited by a subclass whose
    [_pre_preparation] is [hook], and [get_data] is the one of [Acquire]
    itself. *)
Definition get_data_via (hook : Dataset -> M Dataset)
    (use_cache cache_data : bool) : M Dataset :=
  let* df := _load_data use_cache cache_data in
  hook df.

Definition get_data : bool -> bool -> M Dataset :=
  get_data_via _pre_preparation.

End Loader.

Arguments World : clear implicits.
Arguments State : clear implicits.

(** What a run added to the log. *)
Definition events_since {lib : Library} (before after : State lib) : list Event :=
  drop (length (trace (world before))) (trace (world after)).

Definition is_fetch (ev : Event) : bool :=
  match call ev with read_sql_call _ _ => true | _ => false end.

Definition is_cache_read (ev : Event) : bool :=
  match call ev with read_csv_call _ => true | _ => false end.

Definition is_cache_write (ev : Event) : bool :=
  match call ev with to_csv_call _ _ => true | _ => false end.

(** ** The csv library

    An instance of [Library] to run the loader on, and the one against which
    the round trip through the cache file is settled: [DataFrame.to_csv] and
    [pd.read_csv] are code of pandas, not of this repository.  Tables have
    integer, text and boolean cells and missing values; floats and dates are
    not described. *)
Module MiniPandas.

Inductive cell : Type :=
  | Int (n : Z)
  | Text (s : string)
  | Bool (b : bool)
  | Missing.

Record DataFrame : Type := mkDataFrame {
  columns : list string;
  rows : list (list cell)
}.

Definition comma : ascii := ","%char.
Definition dquote : ascii := "034"%char.
Definition newline : ascii := "010"%char.
Definition creturn : ascii := "013"%char.

(** *** Printing *)

Definition print_int (n : Z) : string := NilZero.string_of_int (Z.to_int n).

(** A missing value is printed as the empty field. *)
Definition print_cell (c : cell) : string :=
  match c with
  | Int n => print_int n
  | Text s => s
  | Bool b => if b then "True" else "False"
  | Missing => ""
  end.

(** Minimal quoting: a field is quoted when it holds the separator, a quote
    or a line break, and the quotes inside it are doubled. *)
Definition is_special (c : ascii) : bool :=
  bool_decide (c = comma) || bool_decide (c = dquote) ||
  bool_decide (c = newline) || bool_decide (c = creturn).

Fixpoint needs_quote (f : string) : bool :=
  match f with
  | EmptyString => false
  | String c r => is_special c || needs_quote r
  end.

Fixpoint double_quotes (f : string) : string :=
  match f with
  | EmptyString => EmptyString
  | String c r =>
      if decide (c = dquote) then String dquote (String dquote (double_quotes r))
      else String c (double_quotes r)
  end.

Definition quote (f : string) : string :=
  if needs_quote f
  then String dquote (double_quotes f +:+ String dquote EmptyString)
  else f.

(** A record is its fields, quoted where needed, with commas between them;
    the record of one empty field is written as a pair of quotes, so that it
    is not an empty line. *)
Definition print_record (fields : list string) : string :=
  if decide (fields = [EmptyString])
  then String dquote (String dquote EmptyString)
  else String.concat "," (quote <$> fields).

Definition print_line (fields : list string) : string :=
  print_record fields +:+ String newline EmptyString.

(** Modelled from the spec: [DataFrame.to_csv(path, index = index)] of
    pandas, which is not under the sources.  The spec's section 6 gives the
    format (comma-separated, a header row of column names, one row per
    record, no leading index column when [index] is false); quoting and the
    empty field for a missing value are the defaults of [to_csv] as its
    documentation gives them.  With [index = true] the printer adds a leading
    unnamed column holding the row numbers. *)
Definition to_text (df : DataFrame) (index : bool) : string :=
  let header := if index then EmptyString :: columns df else columns df in
  let line i r :=
    let fs := print_cell <$> r in
    if index then print_cell (Int (Z.of_nat i)) :: fs else fs in
  String.concat "" (print_line <$> (header :: imap line (rows df))).

(** *** Parsing *)

Definition prepend (x : string) (l : list string) : list string :=
  match l with
  | f :: fs => (x +:+ f) :: fs
  | [] => [x]
  end.

(** Splitting a text at the separators that are outside quotes; [inq] tells
    whether an odd number of quotes has been passed in the current piece. *)
Fixpoint split_q (sep : ascii) (inq : bool) (s : string) : list string :=
  match s with
  | EmptyString => [EmptyString]
  | String c r =>
      if bool_decide (c = sep) && negb inq
      then EmptyString :: split_q sep false r
      else prepend (String c EmptyString)
             (split_q sep (if decide (c = dquote) then negb inq else inq) r)
  end.


(** The records of a text: its lines, empty lines skipped. *)
Definition records_of (s : string) : list string :=
  filter (fun r => r <> EmptyString) (split_q newline false s).

(** The text of a quoted field, after its opening quote: a doubled quote
    stands for one, the last quote closes the field. *)
Fixpoint unq (s : string) : string :=
  match s with
  | EmptyString => EmptyString
  | String c r =>
      if decide (c = dquote) then
        match r with
        | EmptyString => EmptyString
        | String _ r' => String dquote (unq r')
        end
      else String c (unq r)
  end.

Definition unquote (raw : string) : string :=
  match raw with
  | EmptyString => EmptyString
  | String c r => if decide (c = dquote) then unq r else raw
  end.

Definition fields_of (record : string) : list string :=
  unquote <$> split_q comma false record.

(** The texts that [read_csv] takes for a missing value by default. *)
Definition na_values : list string :=
  [EmptyString; "#N/A"; "#N/A N/A"; "#NA"; "-1.#IND"; "-1.#QNAN"; "-NaN";
   "-nan"; "1.#IND"; "1.#QNAN"; "<NA>"; "N/A"; "NA"; "NULL"; "NaN"; "None";
   "n/a"; "nan"; "null"].

Definition is_na (f : string) : bool := bool_decide (f ∈ na_values).

Definition read_int (s : string) : option Z :=
  Z.of_int <$> NilZero.int_of_string s.

(** The texts that [read_csv] takes for the two booleans by default. *)
Definition true_values : list string := ["True"; "TRUE"; "true"].
Definition false_values : list string := ["False"; "FALSE"; "false"].

Definition read_bool (s : string) : option bool :=
  if bool_decide (s ∈ true_values) then Some true
  else if bool_decide (s ∈ false_values) then Some false
  else None.

(** A column is a boolean column when each of its cells is missing or reads
    as a boolean, and an integer column when each of its cells is missing or
    reads as an integer.  (In pandas an integer column with missing cells
    becomes a float column; here its cells stay integers.) *)
Definition column_is_bool (raw : list (list string)) (j : nat) : bool :=
  forallb (fun r => match r !! j with
                    | Some f => is_na f || bool_decide (is_Some (read_bool f))
                    | None => true
                    end) raw.

Definition column_is_int (raw : list (list string)) (j : nat) : bool :=
  forallb (fun r => match r !! j with
                    | Some f => is_na f || bool_decide (is_Some (read_int f))
                    | None => true
                    end) raw.

Definition read_typed (raw : list (list string)) (j : nat) (f : string) : cell :=
  if column_is_int raw j
  then match read_int f with Some n => Int n | None => Text f end
  else Text f.

Definition read_cell (raw : list (list string)) (j : nat) (f : string) : cell :=
  if is_na f then Missing
  else if column_is_bool raw j
       then match read_bool f with
            | Some b => Bool b
            | None => read_typed raw j f
            end
       else read_typed raw j f.

Fixpoint read_row (raw : list (list string)) (j : nat) (r : list string)
    : list cell :=
  match r with
  | [] => []
  | f :: t => read_cell raw j f :: read_row raw (S j) t
  end.

(** A column with no name in the header is named after its position. *)
Fixpoint name_columns (i : nat) (header : list string) : list string :=
  match header with
  | [] => []
  | h :: t =>
      (if decide (h = EmptyString)
       then "Unnamed: " +:+ print_int (Z.of_nat i) else h)
      :: name_columns (S i) t
  end.

Fixpoint occurrences (h : string) (seen : list string) : nat :=
  match seen with
  | [] => 0
  | x :: r => (if decide (x = h) then 1 else 0) + occurrences h r
  end.

(** A column name that has occurred before gets the number of its earlier
    occurrences as a suffix. *)
Fixpoint mangle (seen names : list string) : list string :=
  match names with
  | [] => []
  | h :: t =>
      (match occurrences h seen with
       | 0 => h
       | k => h +:+ "." +:+ print_int (Z.of_nat k)
       end) :: mangle (h :: seen) t
  end.

(** Modelled from the spec: [pd.read_csv(path)] of pandas, which is not
    under the sources, applied to the text of the file.  The spec's section
    6 gives the format and allows numeric or text inference on read; the
    rest follows the defaults of [read_csv] as its documentation gives them:
    the first record is the header, empty lines are skipped, quoted fields
    are unquoted, the default markers of missing values and of booleans are
    recognized, unnamed and repeated column names are renamed, a record with
    more fields than the header is an error and one with fewer is filled
    with missing values, and the type of a column is inferred from all its
    cells. *)
Definition of_text (s : string) : result DataFrame :=
  match fields_of <$> records_of s with
  | [] => Raise (CsvError "No columns to parse from file")
  | header :: raw =>
      let n := length header in
      if forallb (fun r => bool_decide (length r <= n)) raw
      then Ok (mkDataFrame (mangle [] (name_columns 0 header))
                 ((fun r => read_row raw 0 r ++ replicate (n - length r) Missing)
                    <$> raw))
      else Raise (CsvError "Error tokenizing data")
  end.

(** *** Comparing a table with what is read back *)





(** The connection url built from a database name. *)
Definition url_of (name : string) : result string :=
  if decide (name = "") then Raise (ConfigError "no database name")
  else Ok ("mysql+pymysql://user:pw@host/" +:+ name).

#[export] Instance lib : Library := {|
  Dataset := DataFrame;
  parse_csv := of_text;
  render_csv := to_text;
  db_url := url_of
|}.

(** A database holding two tables: [zips], with a text column of postal
    codes, and [countries], with a text column of country codes, [NA] being
    the code of Namibia. *)
Definition zips : DataFrame :=
  mkDataFrame ["zip"; "city"] [[Text "02134"; Text "Boston"]].

Definition countries : DataFrame :=
  mkDataFrame ["code"; "name"] [[Text "NA"; Text "Namibia"]].

Definition zillow (query url : string) : result DataFrame :=
  if decide (url = "mysql+pymysql://user:pw@host/zillow") then
    if decide (query = "SELECT zip, city FROM zips") then Ok zips
    else if decide (query = "SELECT code, name FROM countries")
         then Ok countries
         else Raise (DbError "unknown table")
  else Raise (DbError "cannot connect").

Definition loader : Acquire :=
  mkAcquire "zips.csv" "zillow" "SELECT zip, city FROM zips".

(** A world with no files, and one where the cache file is already there. *)
Definition cold : World lib := @mkWorld lib ∅ ∅ zillow (fun _ => zillow) [].

Definition warm : World lib :=
  @mkWorld lib {[ "zips.csv" := File (to_text zips false) ]} ∅ zillow
    (fun _ => zillow) [].

(** The loader in these two worlds, and a loader with no file name. *)
Definition cold_start : State lib := mkState loader cold.
Definition warm_start : State lib := mkState loader warm.

Definition nameless : State lib :=
  mkState (mkAcquire "" "zillow" "SELECT zip, city FROM zips") cold.

(** More states to run the loader in: a query on a table the database does
    not have, with the cache file there; a cache path that cannot be opened
    for writing; an empty cache file. *)
Definition bad_query : State lib :=
  mkState (mkAcquire "zips.csv" "zillow" "SELECT * FROM nowhere") warm.

Definition locked : State lib :=
  mkState loader
    (@mkWorld lib ∅ {[ "zips.csv" := OSError "zips.csv" "Permission denied" ]}
       zillow (fun _ => zillow) []).

Definition empty_cache : State lib :=
  mkState loader
    (@mkWorld lib {[ "zips.csv" := File "" ]} ∅ zillow (fun _ => zillow) []).

(** A subclass hook that always raises. *)
Definition failing_hook (df : DataFrame) : M DataFrame :=
  fun s => (Raise (CsvError "no such column"), s).







(** A database that gets a new row in [zips] with every query it is sent. *)
Definition zips_later : DataFrame :=
  mkDataFrame ["zip"; "city"]
    [[Text "02134"; Text "Boston"]; [Text "10001"; Text "New York"]].

Definition growing : State lib :=
  mkState loader
    (@mkWorld lib ∅ ∅ zillow
       (fun _ query url =>
          match zillow query url with
          | Ok _ => Ok zips_later
          | Raise e => Raise e
          end)
       []).

End MiniPandas.

(** * Properties of the loader *)

Section Properties.

Context {lib : Library}.
Implicit Types (s : State lib) (a : Acquire) (df : Dataset).

(** ** Stepping through the methods *)

(** The state in which the loader has checked for the cache file. *)
Definition checked s : State lib :=
  mkState (self s)
    (log (os_path_exists_call (file_name (self s))) None (world s)).


(** The two branches of [_load_data], as equations. *)
Lemma load_cache_branch s cache_data :
  path_exists (files (world s)) (file_name (self s)) = true ->
  _load_data true cache_data s = pd_read_csv (file_name (self s)) (checked s).
Proof. intros H. unfold _load_data, bind, get_self, os_path_exists, checked. simpl. by rewrite H. Qed.

Lemma load_remote_branch s use_cache cache_data :
  path_exists (files (world s)) (file_name (self s)) && use_cache = false ->
  _load_data use_cache cache_data s =
    bind (get_db_url (database_name (self s))) (fun url =>
      bind (pd_read_sql (sql (self s)) url) (fun df =>
        bind (if cache_data then to_csv df (file_name (self s)) false
              else ret tt) (fun _ => ret df))) (checked s).
Proof. intros H. unfold _load_data at 1, bind at 1 2, get_self, os_path_exists, checked. simpl. by rewrite H. Qed.

Lemma path_exists_file (fs : gmap string node) p text :
  p <> "" -> fs !! p = Some (File text) -> path_exists fs p = true.
Proof. intros Hp Hf. unfold path_exists. rewrite Hf. by destruct (decide _). Qed.

Lemma path_exists_empty (fs : gmap string node) : path_exists fs "" = false.
Proof. reflexivity. Qed.

Lemma open_read_file (fs : gmap string node) p text :
  p <> "" -> fs !! p = Some (File text) -> open_read fs p = Ok text.
Proof. intros Hp Hf. unfold open_read. rewrite Hf. by destruct (decide _). Qed.

Lemma events_since_app s s' evs :
  trace (world s') = trace (world s) ++ evs -> events_since s s' = evs.
Proof. intros H. unfold events_since. rewrite H. apply drop_app_length. Qed.

(** ** The hook and [get_data] *)

(** C3.  [get_data] is the hook [_pre_preparation] (of the class of the
    object) applied to what [_load_data] returns, in the state [_load_data]
    leaves, and an exception of [_load_data] is the outcome of [get_data];
    the hook of the base class returns its argument and changes nothing, so
    [get_data] of the base class is [_load_data]. *)
Theorem get_data_is_hook_of_load :
  (forall hook use_cache cache_data s,
      get_data_via hook use_cache cache_data s =
        match _load_data use_cache cache_data s with
        | (Ok df, s') => hook df s'
        | (Raise e, s') => (Raise e, s')
        end) /\
  (forall df s, _pre_preparation df s = (Ok df, s)) /\
  (forall use_cache cache_data s,
      get_data use_cache cache_data s = _load_data use_cache cache_data s).
Proof.
  split; [reflexivity | split; [reflexivity |]].
  intros uc cd s. unfold get_data, get_data_via, bind, _pre_preparation, ret.
  by destruct (_load_data uc cd s) as [[df | e] s'].
Qed.

Lemma get_data_eq_load use_cache cache_data s :
  get_data use_cache cache_data s = _load_data use_cache cache_data s.
Proof.
  unfold get_data, get_data_via, bind, _pre_preparation, ret.
  by destruct (_load_data use_cache cache_data s) as [[df | e] s'].
Qed.

(** ** The cache path *)

(** C1.  When a file is at [file_name] and [use_cache] is true, [_load_data]
    returns what the parser makes of the text of that file; [get_data] hands
    exactly that to the hook; the only library calls are the existence check
    and the read, so no query is sent; the object, the files and the rest of
    the world are as before; and the outcome is the same whatever query and
    database name the object stores. *)
Theorem cache_hit_reads_file_only s cache_data text :
  file_name (self s) <> "" ->
  files (world s) !! file_name (self s) = Some (File text) ->
  exists s',
    _load_data true cache_data s = (parse_csv text, s') /\
    (forall hook,
        get_data_via hook true cache_data s =
          match parse_csv text with
          | Ok df => hook df s'
          | Raise e => (Raise e, s')
          end) /\
    get_data true cache_data s = (parse_csv text, s') /\
    self s' = self s /\
    files (world s') = files (world s) /\
    wfail (world s') = wfail (world s) /\
    remote (world s') = remote (world s) /\
    events_since s s' =
      [mkEvent (os_path_exists_call (file_name (self s))) None;
       mkEvent (read_csv_call (file_name (self s)))
         (outcome (parse_csv text))] /\
    List.filter is_fetch (events_since s s') = [] /\
    (forall name query,
        (_load_data true cache_data
           (mkState (mkAcquire (file_name (self s)) name query) (world s))).1
        = parse_csv text).
Proof.
  intros Hp Hf.
  pose proof (path_exists_file _ _ _ Hp Hf) as Hex.
  pose proof (open_read_file _ _ _ Hp Hf) as Hrd.
  assert (Hload : _load_data true cache_data s =
            pd_read_csv (file_name (self s)) (checked s))
    by exact (load_cache_branch s cache_data Hex).
  unfold pd_read_csv, checked in Hload. simpl in Hload. rewrite Hrd in Hload.
  eexists. split; [exact Hload |].
  assert (Hev : events_since s
            (mkState (self s)
               (log (read_csv_call (file_name (self s)))
                  (outcome (parse_csv text))
                  (log (os_path_exists_call (file_name (self s))) None
                     (world s)))) =
            [mkEvent (os_path_exists_call (file_name (self s))) None;
             mkEvent (read_csv_call (file_name (self s)))
               (outcome (parse_csv text))]).
  { apply events_since_app. simpl. by rewrite <- app_assoc. }
  repeat split; try reflexivity.
  - intros hook. unfold get_data_via, bind. rewrite Hload.
    by destruct (parse_csv text).
  - by rewrite get_data_eq_load.
  - exact Hev.
  - by rewrite Hev.
  - intros name query.
    rewrite (load_cache_branch (mkState (mkAcquire _ name query) (world s))
               cache_data Hex).
    unfold pd_read_csv. simpl. by rewrite Hrd.
Qed.

(** ** The remote path *)

Lemma open_write_log c o (w : World lib) p :
  open_write (log c o w) p = open_write w p.
Proof. reflexivity. Qed.

Lemma open_write_serve query url (w : World lib) p :
  open_write (serve query url w) p = open_write w p.
Proof. reflexivity. Qed.

Ltac open_write_known :=
  repeat (rewrite open_write_log || rewrite open_write_serve).

(** C2.  When no file is at [file_name] or [use_cache] is false (and
    [get_db_url] gives a url for [database_name]), [_load_data] sends one
    query, the stored [sql], to that url, and reads no file.  When the
    query is answered with a dataset: with [cache_data] true there is one
    write, to [file_name] and with [index = False], and where the file can
    be written it now holds the printed dataset, whatever was there before,
    and the dataset is returned; with [cache_data] false the dataset is
    returned and nothing is written. *)
Theorem remote_path_fetches_once s use_cache cache_data url :
  path_exists (files (world s)) (file_name (self s)) && use_cache = false ->
  db_url (database_name (self s)) = Ok url ->
  exists r s',
    _load_data use_cache cache_data s = (r, s') /\
    self s' = self s /\
    List.filter is_fetch (events_since s s') =
      [mkEvent (read_sql_call (sql (self s)) url)
         (outcome (remote (world s) (sql (self s)) url))] /\
    List.filter is_cache_read (events_since s s') = [] /\
    forall df,
      remote (world s) (sql (self s)) url = Ok df ->
      if cache_data then
        List.filter is_cache_write (events_since s s') =
          [mkEvent (to_csv_call (file_name (self s)) false)
             (outcome (open_write (world s) (file_name (self s))))] /\
        (open_write (world s) (file_name (self s)) = Ok tt ->
         r = Ok df /\
         files (world s') =
           <[file_name (self s) := File (render_csv df false)]>
             (files (world s)) /\
         files (world s') !! file_name (self s) =
           Some (File (render_csv df false)))
      else
        r = Ok df /\
        files (world s') = files (world s) /\
        List.filter is_cache_write (events_since s s') = [].
Proof.
  intros Hbr Hurl.
  rewrite (load_remote_branch s use_cache cache_data Hbr).
  unfold bind, get_db_url, pd_read_sql, to_csv, ret, checked. simpl.
  rewrite Hurl. simpl.
  destruct (remote (world s) (sql (self s)) url) as [df0 | e] eqn:Hq; simpl.
  - destruct cache_data; simpl.
    + open_write_known.
      destruct (open_write (world s) (file_name (self s))) as [[] | e] eqn:Hw;
        simpl.
      all: do 2 eexists; split; [reflexivity |].
      all: erewrite events_since_app
        by (simpl; rewrite <- !app_assoc; reflexivity).
      all: simpl; (split; [reflexivity |]); (split; [reflexivity |]);
        (split; [reflexivity |]).
      all: intros ? [= <-]; (split; [reflexivity |]).
      * intros _; repeat split; auto. by rewrite lookup_insert_eq.
      * intros [=].
    + do 2 eexists; split; [reflexivity |].
      erewrite events_since_app
        by (simpl; rewrite <- !app_assoc; reflexivity).
      simpl; (split; [reflexivity |]); (split; [reflexivity |]);
        (split; [reflexivity |]).
      by intros ? [= <-].
  - do 2 eexists; split; [reflexivity |].
    erewrite events_since_app
      by (simpl; rewrite <- !app_assoc; reflexivity).
    simpl; (split; [reflexivity |]); (split; [reflexivity |]);
      (split; [reflexivity |]).
    intros ? [=].
Qed.

(** ** A run of [_load_data], case by case *)

(** Every run of [_load_data] ends in one of these ways; [run_cases]
    produces them, and [events_known] computes what the run logged. *)
Ltac cache_cases s :=
  destruct (open_read (files (world s)) (file_name (self s)))
    as [text | e_open] eqn:Hopen; simpl;
  [destruct (parse_csv text) as [parsed | e_parse] eqn:Hparse |].

Ltac remote_cases s cache_data :=
  destruct (db_url (database_name (self s))) as [url | e_url] eqn:Hurl;
  simpl;
  [destruct (remote (world s) (sql (self s)) url)
     as [fetched | e_sql] eqn:Hsql; simpl;
   [destruct cache_data; simpl;
    [open_write_known;
     destruct (open_write (world s) (file_name (self s)))
       as [[] | e_write] eqn:Hwrite; simpl |] |] |].

Ltac run_cases s use_cache cache_data :=
  unfold _load_data, bind, get_self, os_path_exists, pd_read_csv,
    get_db_url, pd_read_sql, to_csv, ret; simpl;
  destruct (path_exists (files (world s)) (file_name (self s))) eqn:Hexists;
  [destruct use_cache; simpl;
   [cache_cases s | remote_cases s cache_data]
  | simpl; remote_cases s cache_data].

Ltac events_known :=
  erewrite events_since_app
    by (simpl; rewrite <- ?app_assoc; reflexivity);
  simpl.

(** ** Switching the cache off *)

(** C4.  With [cache_data] false, [get_data] leaves the files exactly as
    they were, on either path, and makes no call that writes. *)
Theorem no_cache_data_no_write s use_cache :
  exists r s',
    get_data use_cache false s = (r, s') /\
    files (world s') = files (world s) /\
    wfail (world s') = wfail (world s) /\
    List.filter is_cache_write (events_since s s') = [].
Proof.
  rewrite get_data_eq_load.
  remember false as cache_data eqn:Hcd.
  run_cases s use_cache cache_data; try discriminate.
  all: do 2 eexists; (split; [reflexivity |]).
  all: events_known; done.
Qed.

(** ** Exceptions *)

Ltac trace_known :=
  simpl; rewrite <- ?app_assoc; reflexivity.

Ltac in_concrete_list :=
  repeat match goal with
    | H : _ ∈ _ :: _ |- _ => apply elem_of_cons in H; destruct H as [H | H]
    | H : _ ∈ [] |- _ => by apply elem_of_nil in H
    end;
  simplify_eq.

Ltac distinct_calls :=
  repeat (apply NoDup_cons; split;
          [rewrite ?elem_of_cons, ?elem_of_nil; intuition discriminate |]);
  apply NoDup_nil_2.

(** C5.  A run of [get_data] makes a sequence [evs] of library calls, none
    of them twice.  [get_data] raises [e] exactly when one of these calls
    raised [e]; the call that raised is the last one made, so nothing is
    tried again or tried instead.  When [get_data] returns a dataset, every
    call returned, and the dataset is the parsed cache file or the answer
    to the query, with the cache file written if [cache_data] asked for
    it. *)
Theorem failures_propagate s use_cache cache_data :
  exists r s' evs,
    get_data use_cache cache_data s = (r, s') /\
    trace (world s') = trace (world s) ++ evs /\
    (forall e, r = Raise e <-> exists c, mkEvent c (Some e) ∈ evs) /\
    (forall c e,
        mkEvent c (Some e) ∈ evs -> last evs = Some (mkEvent c (Some e))) /\
    NoDup (call <$> evs) /\
    (forall df,
        r = Ok df ->
        (forall ev, ev ∈ evs -> raised ev = None) /\
        ((exists text,
             use_cache = true /\
             open_read (files (world s)) (file_name (self s)) = Ok text /\
             parse_csv text = Ok df) \/
         (exists url,
             db_url (database_name (self s)) = Ok url /\
             remote (world s) (sql (self s)) url = Ok df /\
             (cache_data = true ->
              files (world s') !! file_name (self s) =
                Some (File (render_csv df false)))))).
Proof.
  rewrite get_data_eq_load.
  run_cases s use_cache cache_data.
  all: do 3 eexists; (split; [reflexivity |]); (split; [trace_known |]).
  all: simpl.
  all: split;
    [intros e; split; [intros [= <-] | intros [c Hin]; simpl in Hin] |].
  all: try (eexists; rewrite !elem_of_cons; eauto 6; fail).
  all: try solve [in_concrete_list; reflexivity].
  all: split; [intros c e Hin; in_concrete_list; reflexivity |].
  all: split; [simpl; distinct_calls |].
  all: intros df Hr; simplify_eq.
  all: split; [intros ev Hin; in_concrete_list; reflexivity |].
  all: try solve [left; eauto].
  all: right; eexists; repeat split; eauto; try discriminate.
  all: intros _; simpl; by rewrite lookup_insert_eq.
Qed.

(** ** The empty file name *)

Lemma open_write_empty (w : World lib) :
  open_write w "" = Raise (FileNotFoundError "").
Proof. reflexivity. Qed.

(** C8.  With [file_name] empty the existence check is false, so
    [use_cache] makes no difference: [_load_data] runs as with
    [use_cache = False], asks for the connection url and reads no file.
    When the query is answered and [cache_data] is true, the write to the
    empty path raises [FileNotFoundError], and that exception, the one the
    write raised, is the outcome of [_load_data] and of [get_data]; no file
    is created. *)
Theorem empty_file_name_goes_remote s use_cache cache_data :
  file_name (self s) = "" ->
  path_exists (files (world s)) (file_name (self s)) = false /\
  _load_data use_cache cache_data s = _load_data false cache_data s /\
  exists r s',
    _load_data use_cache cache_data s = (r, s') /\
    get_data use_cache cache_data s = (r, s') /\
    List.filter is_cache_read (events_since s s') = [] /\
    mkEvent (get_db_url_call (database_name (self s)))
      (outcome (db_url (database_name (self s)))) ∈ events_since s s' /\
    files (world s') = files (world s) /\
    forall url df,
      db_url (database_name (self s)) = Ok url ->
      remote (world s) (sql (self s)) url = Ok df ->
      if cache_data then
        r = Raise (FileNotFoundError "") /\
        last (events_since s s') =
          Some (mkEvent (to_csv_call "" false)
                  (Some (FileNotFoundError "")))
      else r = Ok df.
Proof.
  intros Hname.
  assert (Hex : path_exists (files (world s)) (file_name (self s)) = false)
    by (rewrite Hname; apply path_exists_empty).
  split; [exact Hex |].
  split.
  { rewrite !load_remote_branch; [reflexivity | | ]; by rewrite Hex. }
  rewrite get_data_eq_load.
  run_cases s use_cache cache_data; try discriminate.
  all: try (rewrite Hname, open_write_empty in Hwrite; simplify_eq).
  all: do 2 eexists; (split; [reflexivity |]); (split; [reflexivity |]).
  all: events_known.
  all: (split; [reflexivity |]).
  all: split; [rewrite ?Hurl; simpl; rewrite !elem_of_cons; auto |].
  all: (split; [reflexivity |]).
  all: intros url' df' Hu Hq; try congruence.
  by rewrite Hname.
Qed.

(** ** The three fields *)

Lemma load_keeps_self s use_cache cache_data :
  self (_load_data use_cache cache_data s).2 = self s.
Proof. run_cases s use_cache cache_data; reflexivity. Qed.

(** C9.  [__init__] called with three arguments makes them the three
    fields, as given, returns, and leaves the world, its log of library
    calls included, as it was; and after [get_data], [_load_data] or
    [_pre_preparation], however they end, the object has the fields it had
    before. *)
Theorem fields_stored_and_kept :
  (forall f d q s,
      __init__ (Some f) (Some d) (Some q) s =
        (Ok (), mkState (mkAcquire f d q) (world s))) /\
  (forall use_cache cache_data s,
      self (get_data use_cache cache_data s).2 = self s) /\
  (forall use_cache cache_data s,
      self (_load_data use_cache cache_data s).2 = self s) /\
  (forall df s, self (_pre_preparation df s).2 = self s).
Proof.
  split; [reflexivity |].
  split; [| split; [| reflexivity]].
  - intros uc cd s. rewrite get_data_eq_load. apply load_keeps_self.
  - intros uc cd s. apply load_keeps_self.
Qed.

(** C10.  Each argument of [__init__] may be left out, and a field whose
    argument is left out is the empty string, the others being as given;
    [Acquire()] has three empty fields.  Nothing else changes. *)
Theorem init_defaults_to_empty :
  (forall s,
      __init__ None None None s =
        (Ok (), mkState (mkAcquire "" "" "") (world s))) /\
  (forall f d q s,
      exists s',
        __init__ f d q s = (Ok (), s') /\
        world s' = world s /\
        file_name (self s') = match f with Some v => v | None => "" end /\
        database_name (self s') = match d with Some v => v | None => "" end /\
        sql (self s') = match q with Some v => v | None => "" end).
Proof.
  split; [reflexivity |].
  intros f d q s. eexists. split; [reflexivity |].
  by destruct f, d, q.
Qed.

(** ** Calling twice *)



Lemma open_write_lookup (w1 w2 : World lib) p :
  files w1 !! p = files w2 !! p ->
  wfail w1 !! p = wfail w2 !! p ->
  open_write w1 p = open_write w2 p.
Proof. intros Hf Hw. unfold open_write. by rewrite Hf, Hw. Qed.


Lemma open_write_nonempty (w : World lib) p :
  open_write w p = Ok () -> p <> "".
Proof. intros H ->. by rewrite open_write_empty in H. Qed.


(** The run that fetches and writes. *)
Lemma remote_write_run s use_cache url df :
  path_exists (files (world s)) (file_name (self s)) && use_cache = false ->
  db_url (database_name (self s)) = Ok url ->
  remote (world s) (sql (self s)) url = Ok df ->
  open_write (world s) (file_name (self s)) = Ok () ->
  exists s1,
    _load_data use_cache true s = (Ok df, s1) /\
    self s1 = self s /\
    files (world s1) =
      <[file_name (self s) := File (render_csv df false)]> (files (world s)) /\
    events_since s s1 =
      [mkEvent (os_path_exists_call (file_name (self s))) None;
       mkEvent (get_db_url_call (database_name (self s))) None;
       mkEvent (read_sql_call (sql (self s)) url) None;
       mkEvent (to_csv_call (file_name (self s)) false) None].
Proof.
  intros Hbr Hurl Hsql Hw.
  rewrite (load_remote_branch s use_cache true Hbr).
  unfold bind, get_db_url, pd_read_sql, to_csv, ret, checked. simpl.
  rewrite Hurl. simpl. rewrite Hsql. simpl. open_write_known. rewrite Hw.
  eexists. split; [reflexivity |]. by events_known.
Qed.

(** The run that reads the cache. *)
Lemma cache_read_run s cache_data :
  path_exists (files (world s)) (file_name (self s)) = true ->
  exists s1,
    _load_data true cache_data s =
      (match open_read (files (world s)) (file_name (self s)) with
       | Ok text => parse_csv text
       | Raise e => Raise e
       end, s1) /\
    self s1 = self s /\
    files (world s1) = files (world s) /\
    List.filter is_fetch (events_since s s1) = [].
Proof.
  intros Hex. rewrite (load_cache_branch s cache_data Hex).
  unfold pd_read_csv, checked. simpl.
  eexists. split; [reflexivity |]. by events_known.
Qed.

(** What a run of [_load_data] leaves behind: the object and the write
    permissions are as before, and either every file is as it was, or the
    run has fetched a dataset and written it to the cache file. *)
Lemma load_effect s use_cache cache_data r1 s1 :
  _load_data use_cache cache_data s = (r1, s1) ->
  self s1 = self s /\
  wfail (world s1) = wfail (world s) /\
  (files (world s1) = files (world s) \/
   (cache_data = true /\
    path_exists (files (world s)) (file_name (self s)) && use_cache = false /\
    exists df url,
      db_url (database_name (self s)) = Ok url /\
      remote (world s) (sql (self s)) url = Ok df /\
      open_write (world s) (file_name (self s)) = Ok () /\
      r1 = Ok df /\
      files (world s1) =
        <[file_name (self s) := File (render_csv df false)]>
          (files (world s)))).
Proof.
  run_cases s use_cache cache_data.
  all: intros [= <- <-].
  all: (split; [reflexivity |]); (split; [reflexivity |]).
  all: try (left; reflexivity).
  all: right; (split; [reflexivity |]); (split; [done |]).
  all: by exists fetched, url.
Qed.




(** * Further properties of the methods *)

(** ** The library calls of one run *)

(** X1.  A run of [get_data] starts with the existence check of [file_name],
    whatever the flags, and makes at most three calls after it.  It never
    both reads the cache file and queries the database, and it makes at most
    one query.  A write, when there is one, is the last call of the run and
    the call just before it is the query, answered. *)
Theorem library_calls_shape s use_cache cache_data :
  exists r s' rest,
    get_data use_cache cache_data s = (r, s') /\
    events_since s s' =
      mkEvent (os_path_exists_call (file_name (self s))) None :: rest /\
    length rest <= 3 /\
    (List.filter is_cache_read rest = [] \/
     List.filter is_fetch rest = [] /\ List.filter is_cache_write rest = []) /\
    length (List.filter is_fetch rest) <= 1 /\
    (forall before ev after,
        rest = before ++ ev :: after ->
        is_cache_write ev = true ->
        after = [] /\
        exists earlier url,
          before =
            earlier ++ [mkEvent (read_sql_call (sql (self s)) url) None]).
Proof.
  rewrite get_data_eq_load.
  run_cases s use_cache cache_data.
  all: do 3 eexists; (split; [reflexivity |]).
  all: events_known.
  all: (split; [reflexivity |]).
  all: simpl; (split; [lia |]).
  all: split; [auto |].
  all: (split; [lia |]).
  all: intros before ev after Heq Hw.
  all: repeat (destruct before as [| ? before]; simpl in Heq;
               [injection Heq as <- <- | injection Heq as <- Heq];
               simpl in Hw; try discriminate Hw).
  all: try (by destruct before).
  all: split; [reflexivity |].
  all: by eexists [_], url.
Qed.

(** ** Failures and the cache file *)

(** X2.  On the remote path, when [get_db_url] or the query raises [e],
    [get_data] raises [e] without having made a write: the files, a cache
    file that was there included, are as before, also with [use_cache] false
    and [cache_data] true. *)
Theorem failed_fetch_keeps_files s use_cache cache_data e :
  path_exists (files (world s)) (file_name (self s)) && use_cache = false ->
  db_url (database_name (self s)) = Raise e \/
  (exists url,
      db_url (database_name (self s)) = Ok url /\
      remote (world s) (sql (self s)) url = Raise e) ->
  exists s',
    get_data use_cache cache_data s = (Raise e, s') /\
    files (world s') = files (world s) /\
    List.filter is_cache_write (events_since s s') = [].
Proof.
  intros Hbr Hfail.
  rewrite get_data_eq_load, (load_remote_branch s use_cache cache_data Hbr).
  unfold bind, get_db_url, pd_read_sql, checked. simpl.
  destruct Hfail as [Hurl | (url & Hurl & Hsql)]; rewrite Hurl; simpl.
  - eexists. split; [reflexivity |]. by events_known.
  - rewrite Hsql. simpl. eexists. split; [reflexivity |]. by events_known.
Qed.

(** X3.  On the remote path with [cache_data] true, when the query is
    answered but the cache file cannot be opened for writing, [get_data]
    raises the exception of the write: the dataset that was fetched is not
    returned, although the query, one query, was sent. *)
Theorem failed_write_loses_dataset s use_cache url df e :
  path_exists (files (world s)) (file_name (self s)) && use_cache = false ->
  db_url (database_name (self s)) = Ok url ->
  remote (world s) (sql (self s)) url = Ok df ->
  open_write (world s) (file_name (self s)) = Raise e ->
  exists s',
    get_data use_cache true s = (Raise e, s') /\
    List.filter is_fetch (events_since s s') =
      [mkEvent (read_sql_call (sql (self s)) url) None] /\
    last (events_since s s') =
      Some (mkEvent (to_csv_call (file_name (self s)) false) (Some e)) /\
    files (world s') = files (world s).
Proof.
  intros Hbr Hurl Hsql Hw.
  rewrite get_data_eq_load, (load_remote_branch s use_cache true Hbr).
  unfold bind, get_db_url, pd_read_sql, to_csv, checked. simpl.
  rewrite Hurl. simpl. rewrite Hsql. simpl.
  open_write_known. rewrite Hw.
  eexists. split; [reflexivity |]. by events_known.
Qed.

(** X4.  When something is at [file_name] and [use_cache] is true, a cache
    file that cannot be opened or parsed makes [get_data] raise the error of
    the read: the loader does not fall back on the database (no url is asked
    for, no query sent) and leaves the files alone. *)
Theorem unreadable_cache_no_fallback s cache_data e :
  path_exists (files (world s)) (file_name (self s)) = true ->
  open_read (files (world s)) (file_name (self s)) = Raise e \/
  (exists text,
      open_read (files (world s)) (file_name (self s)) = Ok text /\
      parse_csv text = Raise e) ->
  exists s',
    get_data true cache_data s = (Raise e, s') /\
    events_since s s' =
      [mkEvent (os_path_exists_call (file_name (self s))) None;
       mkEvent (read_csv_call (file_name (self s))) (Some e)] /\
    List.filter is_fetch (events_since s s') = [] /\
    files (world s') = files (world s).
Proof.
  intros Hex Hfail.
  rewrite get_data_eq_load, (load_cache_branch s cache_data Hex).
  unfold pd_read_csv, checked. simpl.
  destruct Hfail as [Hopen | (text & Hopen & Hparse)]; rewrite Hopen;
    rewrite ?Hparse.
  all: eexists; split; [reflexivity |]; by events_known.
Qed.

(** ** What a repeated call leaves on disk *)

(** X6.  When a call of [get_data] has returned a dataset and the database
    answers the stored query afterwards as it did before, the same call made
    next changes no file: the files after it are the files the first call
    left, also when both calls fetch and write. *)
Theorem second_call_changes_no_file s use_cache cache_data df s1 :
  get_data use_cache cache_data s = (Ok df, s1) ->
  (forall url,
      remote (world s1) (sql (self s)) url =
        remote (world s) (sql (self s)) url) ->
  files (world (get_data use_cache cache_data s1).2) = files (world s1).
Proof.
  rewrite !get_data_eq_load. intros H1 Hstable.
  destruct (_load_data use_cache cache_data s1) as [r2 s2] eqn:H2. simpl.
  destruct (load_effect _ _ _ _ _ H1) as (Hself & Hwfail & Hfirst).
  destruct (load_effect _ _ _ _ _ H2)
    as (_ & _ & [Hf | (-> & Hbr2 & df2 & url & Hurl & Hsql & Hw & _ & Hfiles)]);
    [done |].
  rewrite Hfiles. apply insert_id.
  rewrite Hself in *. rewrite Hstable in Hsql.
  destruct Hfirst
    as [Hf1 | (_ & _ & df1 & url1 & Hurl1 & Hsql1 & _ & Hok & Hf1)].
  - destruct (remote_write_run s use_cache url df2) as (s1' & Hrun & _ & Hf' & _).
    + by rewrite <- Hf1.
    + done.
    + done.
    + by rewrite <- (open_write_lookup (world s1) (world s))
        by (by rewrite ?Hf1, ?Hwfail).
    + rewrite H1 in Hrun. injection Hrun as _ <-.
      rewrite Hf'. apply lookup_insert_eq.
  - assert (url1 = url) as -> by congruence.
    assert (df1 = df2) as -> by congruence.
    rewrite Hf1. apply lookup_insert_eq.
Qed.

(** X7.  The flags act only through the branch taken: [use_cache] makes a
    difference only when something is at [file_name], and [cache_data] only
    when the cache is not read.  Result and final state are the same. *)
Theorem flags_act_through_branch s use_cache cache_data :
  get_data use_cache cache_data s =
    get_data (use_cache && path_exists (files (world s)) (file_name (self s)))
      cache_data s /\
  get_data use_cache cache_data s =
    get_data use_cache
      (cache_data &&
       negb (path_exists (files (world s)) (file_name (self s)) && use_cache))
      s.
Proof.
  rewrite !get_data_eq_load.
  unfold _load_data, bind, get_self, os_path_exists. simpl.
  by destruct (path_exists (files (world s)) (file_name (self s))),
    use_cache, cache_data.
Qed.

(** ** After a successful call *)

(** X8.  After a call of [get_data] with [cache_data] true that returned a
    dataset, the cache file exists, and a call with [use_cache] true made
    next sends no query and changes no file; when the first call was on the
    remote path, the second returns the parse of the fetched dataset as
    printed without index, whatever [use_cache] the first call had. *)
Theorem success_warms_cache s use_cache cache_data' df s1 :
  get_data use_cache true s = (Ok df, s1) ->
  path_exists (files (world s1)) (file_name (self s1)) = true /\
  exists r2 s2,
    get_data true cache_data' s1 = (r2, s2) /\
    List.filter is_fetch (events_since s1 s2) = [] /\
    files (world s2) = files (world s1) /\
    (path_exists (files (world s)) (file_name (self s)) && use_cache = false ->
     r2 = parse_csv (render_csv df false)).
Proof.
  rewrite get_data_eq_load. intros Hrun.
  assert (Hwarm : path_exists (files (world s1)) (file_name (self s1)) = true
                  /\ (path_exists (files (world s)) (file_name (self s))
                        && use_cache = false ->
                      open_read (files (world s1)) (file_name (self s1)) =
                        Ok (render_csv df false))).
  { revert Hrun. remember true as cache_data eqn:Hcd.
    run_cases s use_cache cache_data; intros Hrun; simplify_eq; simpl.
    - (* the call read the cache *)
      by split.
    - (* the file was there, the call fetched and wrote all the same *)
      pose proof (open_write_nonempty _ _ Hwrite) as Hne. split.
      + eapply path_exists_file; [exact Hne | apply lookup_insert_eq].
      + intros _. eapply open_read_file; [exact Hne | apply lookup_insert_eq].
    - (* no file was there *)
      pose proof (open_write_nonempty _ _ Hwrite) as Hne. split.
      + eapply path_exists_file; [exact Hne | apply lookup_insert_eq].
      + intros _. eapply open_read_file; [exact Hne | apply lookup_insert_eq]. }
  destruct Hwarm as [Hex Hread]. split; [exact Hex |].
  rewrite get_data_eq_load.
  destruct (cache_read_run s1 cache_data' Hex) as (s2 & Hrun2 & _ & Hf2 & Hq).
  do 2 eexists. split; [exact Hrun2 |].
  repeat split; [exact Hq | exact Hf2 |].
  intros Hbr. by rewrite (Hread Hbr).
Qed.

(** ** The hook of a subclass *)

(** X9.  When [get_data] of a subclass fetches and writes, the hook runs
    after the write, on the fetched dataset: the cache file holds the dataset
    as fetched, not as the hook returns it, and holds it also when the hook
    raises (given that the hook itself leaves the files alone). *)
Theorem cache_holds_fetched_dataset hook s use_cache url df :
  path_exists (files (world s)) (file_name (self s)) && use_cache = false ->
  db_url (database_name (self s)) = Ok url ->
  remote (world s) (sql (self s)) url = Ok df ->
  open_write (world s) (file_name (self s)) = Ok () ->
  exists s1,
    get_data_via hook use_cache true s = hook df s1 /\
    files (world s1) !! file_name (self s) =
      Some (File (render_csv df false)) /\
    ((forall d t, files (world (hook d t).2) = files (world t)) ->
     files (world (get_data_via hook use_cache true s).2)
       !! file_name (self s) = Some (File (render_csv df false))).
Proof.
  intros Hbr Hurl Hsql Hw.
  destruct (remote_write_run s use_cache url df Hbr Hurl Hsql Hw)
    as (s1 & Hrun & _ & Hf & _).
  exists s1.
  assert (Hvia : get_data_via hook use_cache true s = hook df s1)
    by (unfold get_data_via, bind; by rewrite Hrun).
  assert (Hlk : files (world s1) !! file_name (self s) =
                  Some (File (render_csv df false)))
    by (rewrite Hf; apply lookup_insert_eq).
  repeat split; [exact Hvia | exact Hlk |].
  intros Hframe. by rewrite Hvia, Hframe.
Qed.

(** ** From construction to the first call *)

Lemma nameless_raises s use_cache :
  file_name (self s) = "" ->
  exists e s',
    get_data use_cache true s = (Raise e, s') /\
    files (world s') = files (world s).
Proof.
  intros Hname. rewrite get_data_eq_load.
  remember true as cache_data eqn:Hcd.
  run_cases s use_cache cache_data; try discriminate.
  all: try (rewrite Hname in Hexists; by rewrite path_exists_empty in Hexists).
  all: try (rewrite Hname, open_write_empty in Hwrite; discriminate).
  all: by do 2 eexists.
Qed.

(** X10.  A loader constructed without a file name cannot cache: whatever
    database name and query it is given, [get_data] with [cache_data] true
    (the default) raises, on a cold disk or not, and leaves the files as
    they were. *)
Theorem no_file_name_cannot_cache d q use_cache s :
  exists e s',
    bind (__init__ None d q) (fun _ => get_data use_cache true) s =
      (Raise e, s') /\
    files (world s') = files (world s).
Proof.
  unfold bind at 1.
  destruct (__init__ None d q s) as [r0 s0] eqn:Hinit.
  assert (r0 = Ok () /\ file_name (self s0) = "" /\ world s0 = world s)
    as (-> & Hname & Hworld)
    by (revert Hinit; unfold __init__, bind, set_self; simpl;
        by intros [= <- <-]).
  rewrite <- Hworld. by apply nameless_raises.
Qed.

(** X11.  Constructing a loader with a file name, a database name and a
    query and calling [get_data()] where no file is at the file name:
    when the url resolves, the query is answered and the file can be
    written, the calls made are, in order, the existence check, [get_db_url]
    of the database name, the query at that url and the write without index;
    the answer is returned and is what the new file holds, printed. *)
Theorem first_call_after_construction f d q s url df :
  files (world s) !! f = None ->
  db_url d = Ok url ->
  remote (world s) q url = Ok df ->
  open_write (world s) f = Ok () ->
  exists s',
    bind (__init__ (Some f) (Some d) (Some q)) (fun _ => get_data true true) s =
      (Ok df, s') /\
    self s' = mkAcquire f d q /\
    files (world s') = <[f := File (render_csv df false)]> (files (world s)) /\
    events_since s s' =
      [mkEvent (os_path_exists_call f) None;
       mkEvent (get_db_url_call d) None;
       mkEvent (read_sql_call q url) None;
       mkEvent (to_csv_call f false) None].
Proof.
  intros Hnone Hurl Hsql Hw.
  unfold bind at 1.
  change (__init__ (Some f) (Some d) (Some q) s)
    with (Ok (), mkState (mkAcquire f d q) (world s)).
  cbv beta iota. rewrite get_data_eq_load.
  destruct (remote_write_run (mkState (mkAcquire f d q) (world s)) true url df)
    as (s' & Hrun & Hself & Hf & Hev); simpl; try done.
  { unfold path_exists. rewrite Hnone. by destruct (decide _). }
  exists s'. by rewrite Hrun.
Qed.

End Properties.

(** * Runs on the csv library *)

Import MiniPandas.

Lemma cache_hit_reads_file_only_witness :
  file_name (self warm_start) <> "" /\
  files (world warm_start) !! file_name (self warm_start) =
    Some (File (to_text zips false)) /\
  exists s',
    _load_data true true warm_start = (parse_csv (to_text zips false), s') /\
    (forall hook,
        get_data_via hook true true warm_start =
          match parse_csv (to_text zips false) with
          | Ok df => hook df s'
          | Raise e => (Raise e, s')
          end) /\
    get_data true true warm_start = (parse_csv (to_text zips false), s') /\
    self s' = self warm_start /\
    files (world s') = files (world warm_start) /\
    wfail (world s') = wfail (world warm_start) /\
    remote (world s') = remote (world warm_start) /\
    events_since warm_start s' =
      [mkEvent (os_path_exists_call (file_name (self warm_start))) None;
       mkEvent (read_csv_call (file_name (self warm_start)))
         (outcome (parse_csv (to_text zips false)))] /\
    List.filter is_fetch (events_since warm_start s') = [] /\
    (forall name query,
        (_load_data true true
           (mkState (mkAcquire (file_name (self warm_start)) name query)
              (world warm_start))).1
        = parse_csv (to_text zips false)).
Proof.
  assert (Hp : file_name (self warm_start) <> "") by discriminate.
  assert (Hf : files (world warm_start) !! file_name (self warm_start) =
               Some (File (to_text zips false))) by reflexivity.
  split; [exact Hp |]. split; [exact Hf |].
  exact (cache_hit_reads_file_only warm_start true (to_text zips false) Hp Hf).
Defined.

(** The cache file is there and [use_cache] is false: the query is sent all
    the same. *)
Lemma remote_path_fetches_once_witness :
  path_exists (files (world warm_start)) (file_name (self warm_start)) && false
    = false /\
  db_url (database_name (self warm_start)) =
    Ok "mysql+pymysql://user:pw@host/zillow" /\
  exists r s',
    _load_data false true warm_start = (r, s') /\
    self s' = self warm_start /\
    List.filter is_fetch (events_since warm_start s') =
      [mkEvent
         (read_sql_call (sql (self warm_start))
            "mysql+pymysql://user:pw@host/zillow")
         (outcome
            (remote (world warm_start) (sql (self warm_start))
               "mysql+pymysql://user:pw@host/zillow"))] /\
    List.filter is_cache_read (events_since warm_start s') = [] /\
    forall df : Dataset,
      remote (world warm_start) (sql (self warm_start))
        "mysql+pymysql://user:pw@host/zillow" = Ok df ->
      List.filter is_cache_write (events_since warm_start s') =
        [mkEvent (to_csv_call (file_name (self warm_start)) false)
           (outcome
              (open_write (world warm_start) (file_name (self warm_start))))] /\
      (open_write (world warm_start) (file_name (self warm_start)) = Ok () ->
       r = Ok df /\
       files (world s') =
         <[file_name (self warm_start) := File (render_csv df false)]>
           (files (world warm_start)) /\
       files (world s') !! file_name (self warm_start) =
         Some (File (render_csv df false))).
Proof.
  split; [reflexivity |]. split; [reflexivity |].
  exact (remote_path_fetches_once warm_start false true
           "mysql+pymysql://user:pw@host/zillow" eq_refl eq_refl).
Defined.

Lemma empty_file_name_goes_remote_witness :
  file_name (self nameless) = "" /\
  path_exists (files (world nameless)) (file_name (self nameless)) = false /\
  _load_data true true nameless = _load_data false true nameless /\
  exists r s',
    _load_data true true nameless = (r, s') /\
    get_data true true nameless = (r, s') /\
    List.filter is_cache_read (events_since nameless s') = [] /\
    mkEvent (get_db_url_call (database_name (self nameless)))
      (outcome (db_url (database_name (self nameless))))
      ∈ events_since nameless s' /\
    files (world s') = files (world nameless) /\
    forall url (df : Dataset),
      db_url (database_name (self nameless)) = Ok url ->
      remote (world nameless) (sql (self nameless)) url = Ok df ->
      r = Raise (FileNotFoundError "") /\
      last (events_since nameless s') =
        Some (mkEvent (to_csv_call "" false) (Some (FileNotFoundError ""))).
Proof.
  split; [reflexivity |].
  exact (empty_file_name_goes_remote nameless true true eq_refl).
Defined.


(** The first call fetches [zips] and writes it, the second reads it: no
    file changes. *)
Lemma second_call_changes_no_file_witness :
  get_data true true cold_start =
    (Ok zips, (get_data true true cold_start).2) /\
  (forall url,
      remote (world (get_data true true cold_start).2)
        (sql (self cold_start)) url =
      remote (world cold_start) (sql (self cold_start)) url) /\
  files (world (get_data true true (get_data true true cold_start).2).2) =
    files (world (get_data true true cold_start).2).
Proof.
  assert (Hrun : get_data true true cold_start =
                   (Ok zips, (get_data true true cold_start).2))
    by reflexivity.
  assert (Hstable : forall url,
             remote (world (get_data true true cold_start).2)
               (sql (self cold_start)) url =
             remote (world cold_start) (sql (self cold_start)) url)
    by (intros url; reflexivity).
  split; [exact Hrun |]. split; [exact Hstable |].
  exact (second_call_changes_no_file cold_start true true zips _ Hrun Hstable).
Defined.


(** Where the database does change, the hypothesis on its answers is not
    met, and a call repeated with [use_cache] false returns what the
    database answers then. *)
Lemma refetch_sees_new_rows :
  (get_data false false growing).1 = Ok zips /\
  (get_data false false (get_data false false growing).2).1 = Ok zips_later.
Proof. split; reflexivity. Qed.

(** The query is on a table the database does not have; the cache file is
    there and stays as it is, with [use_cache] false and [cache_data] true. *)
Lemma failed_fetch_keeps_files_witness :
  path_exists (files (world bad_query)) (file_name (self bad_query)) && false
    = false /\
  (db_url (database_name (self bad_query)) = Raise (DbError "unknown table") \/
   exists url,
     db_url (database_name (self bad_query)) = Ok url /\
     remote (world bad_query) (sql (self bad_query)) url =
       Raise (DbError "unknown table")) /\
  exists s',
    get_data false true bad_query = (Raise (DbError "unknown table"), s') /\
    files (world s') = files (world bad_query) /\
    List.filter is_cache_write (events_since bad_query s') = [].
Proof.
  assert (Hfail :
    db_url (database_name (self bad_query)) = Raise (DbError "unknown table") \/
    exists url,
      db_url (database_name (self bad_query)) = Ok url /\
      remote (world bad_query) (sql (self bad_query)) url =
        Raise (DbError "unknown table"))
    by (right; eexists; split; reflexivity).
  split; [reflexivity |]. split; [exact Hfail |].
  exact (failed_fetch_keeps_files bad_query false true _ eq_refl Hfail).
Defined.

(** The cache path cannot be opened for writing. *)
Lemma failed_write_loses_dataset_witness :
  path_exists (files (world locked)) (file_name (self locked)) && true = false /\
  db_url (database_name (self locked)) = Ok "mysql+pymysql://user:pw@host/zillow" /\
  remote (world locked) (sql (self locked)) "mysql+pymysql://user:pw@host/zillow"
    = Ok zips /\
  open_write (world locked) (file_name (self locked)) =
    Raise (OSError "zips.csv" "Permission denied") /\
  exists s',
    get_data true true locked =
      (Raise (OSError "zips.csv" "Permission denied"), s') /\
    List.filter is_fetch (events_since locked s') =
      [mkEvent
         (read_sql_call (sql (self locked))
            "mysql+pymysql://user:pw@host/zillow") None] /\
    last (events_since locked s') =
      Some (mkEvent (to_csv_call (file_name (self locked)) false)
              (Some (OSError "zips.csv" "Permission denied"))) /\
    files (world s') = files (world locked).
Proof.
  do 4 (split; [reflexivity |]).
  exact (failed_write_loses_dataset locked true _ zips _
           eq_refl eq_refl eq_refl eq_refl).
Defined.

(** The cache file is empty. *)
Lemma unreadable_cache_no_fallback_witness :
  path_exists (files (world empty_cache)) (file_name (self empty_cache)) = true /\
  (open_read (files (world empty_cache)) (file_name (self empty_cache)) =
     Raise (CsvError "No columns to parse from file") \/
   exists text,
     open_read (files (world empty_cache)) (file_name (self empty_cache)) =
       Ok text /\
     parse_csv text = Raise (CsvError "No columns to parse from file")) /\
  exists s',
    get_data true true empty_cache =
      (Raise (CsvError "No columns to parse from file"), s') /\
    events_since empty_cache s' =
      [mkEvent (os_path_exists_call (file_name (self empty_cache))) None;
       mkEvent (read_csv_call (file_name (self empty_cache)))
         (Some (CsvError "No columns to parse from file"))] /\
    List.filter is_fetch (events_since empty_cache s') = [] /\
    files (world s') = files (world empty_cache).
Proof.
  assert (Hfail :
    open_read (files (world empty_cache)) (file_name (self empty_cache)) =
      Raise (CsvError "No columns to parse from file") \/
    exists text,
      open_read (files (world empty_cache)) (file_name (self empty_cache)) =
        Ok text /\
      parse_csv text = Raise (CsvError "No columns to parse from file"))
    by (right; exists ""; split; reflexivity).
  split; [reflexivity |]. split; [exact Hfail |].
  exact (unreadable_cache_no_fallback empty_cache true _ eq_refl Hfail).
Defined.

(** The first call fills the cache; the next one reads it. *)
Lemma success_warms_cache_witness :
  get_data true true cold_start = (Ok zips, (get_data true true cold_start).2) /\
  path_exists (files (world (get_data true true cold_start).2))
    (file_name (self (get_data true true cold_start).2)) = true /\
  exists r2 s2,
    get_data true true (get_data true true cold_start).2 = (r2, s2) /\
    List.filter is_fetch (events_since (get_data true true cold_start).2 s2)
      = [] /\
    files (world s2) = files (world (get_data true true cold_start).2) /\
    (path_exists (files (world cold_start)) (file_name (self cold_start))
       && true = false ->
     r2 = parse_csv (render_csv zips false)).
Proof.
  split; [reflexivity |].
  exact (success_warms_cache cold_start true true zips _ eq_refl).
Defined.

(** The hook raises; the cache file has been written. *)
Lemma cache_holds_fetched_dataset_witness :
  path_exists (files (world cold_start)) (file_name (self cold_start)) && true
    = false /\
  db_url (database_name (self cold_start)) =
    Ok "mysql+pymysql://user:pw@host/zillow" /\
  remote (world cold_start) (sql (self cold_start))
    "mysql+pymysql://user:pw@host/zillow" = Ok zips /\
  open_write (world cold_start) (file_name (self cold_start)) = Ok () /\
  exists s1,
    get_data_via failing_hook true true cold_start = failing_hook zips s1 /\
    files (world s1) !! file_name (self cold_start) =
      Some (File (render_csv zips false)) /\
    ((forall d t, files (world (failing_hook d t).2) = files (world t)) ->
     files (world (get_data_via failing_hook true true cold_start).2)
       !! file_name (self cold_start) = Some (File (render_csv zips false))).
Proof.
  do 4 (split; [reflexivity |]).
  exact (cache_holds_fetched_dataset failing_hook cold_start true _ zips
           eq_refl eq_refl eq_refl eq_refl).
Defined.

Lemma first_call_after_construction_witness :
  files (world cold_start) !! "zips.csv" = None /\
  db_url "zillow" = Ok "mysql+pymysql://user:pw@host/zillow" /\
  remote (world cold_start) "SELECT zip, city FROM zips"
    "mysql+pymysql://user:pw@host/zillow" = Ok zips /\
  open_write (world cold_start) "zips.csv" = Ok () /\
  exists s',
    bind
      (__init__ (Some "zips.csv") (Some "zillow")
         (Some "SELECT zip, city FROM zips"))
      (fun _ => get_data true true) cold_start = (Ok zips, s') /\
    self s' = mkAcquire "zips.csv" "zillow" "SELECT zip, city FROM zips" /\
    files (world s') =
      <["zips.csv" := File (render_csv zips false)]> (files (world cold_start)) /\
    events_since cold_start s' =
      [mkEvent (os_path_exists_call "zips.csv") None;
       mkEvent (get_db_url_call "zillow") None;
       mkEvent
         (read_sql_call "SELECT zip, city FROM zips"
            "mysql+pymysql://user:pw@host/zillow") None;
       mkEvent (to_csv_call "zips.csv" false) None].
Proof.
  do 4 (split; [reflexivity |]).
  exact (first_call_after_construction "zips.csv" "zillow"
           "SELECT zip, city FROM zips" cold_start _ zips
           eq_refl eq_refl eq_refl eq_refl).
Defined.

(** * The round trip through the csv text *)

(** ** Texts *)

#[local] Arguments String.append !_ _ /.





(** ** Splitting outside quotes *)









(** ** Quoting *)






(** ** Records and lines *)











(** ** Cells *)









(** ** The header *)




(** ** The table *)


(** ** Through the loader *)



